(** * whisper_transcribe.py: a shallow embedding and its properties

    The script [scripts/whisper_transcribe.py] is a command-line shim around
    the Whisper speech-recognition engine: it checks that the audio file
    exists, loads a model, calls the engine, reshapes the engine's answer
    into a fixed dictionary, prints it as JSON and exits with 0 or 1.

    The embedding follows the script line by line.  Everything outside the
    script (the filesystem, the engine, the interpreter's [repr] of floats)
    is a field of a record [World]; the effects of the script (filesystem
    queries, engine calls, text written to standard output) are recorded in
    a trace; Python exceptions are the second summand of [outcome]. *)

From Stdlib Require Import List String Ascii ZArith NArith QArith Bool Lia.
From Stdlib Require Import DecimalString.
Import ListNotations.

Set Implicit Arguments.
Set Warnings "-register-all".
Local Open Scope list_scope.

(* ===================================================================== *)
(** ** Python strings *)
(* ===================================================================== *)

(** A Python [str] is a sequence of Unicode code points. *)
Definition pystr : Type := list N.

(** The code points of an ASCII literal. *)
Definition lit (s : string) : pystr := map N_of_ascii (list_ascii_of_string s).

(** The code points of an ASCII literal in which the apostrophe stands for
    the double quote, to write JSON text down. *)
Definition dq (s : string) : pystr :=
  map (fun c => if (c =? 39)%N then 34%N else c) (lit s).

Fixpoint pystr_eqb (a b : pystr) : bool :=
  match a, b with
  | [], [] => true
  | x :: a', y :: b' => (x =? y)%N && pystr_eqb a' b'
  | _, _ => false
  end.

(** [str.isspace] on one code point: the characters CPython treats as
    whitespace, which are the ones [str.strip()] removes. *)
Definition py_isspace (c : N) : bool :=
  ((9 <=? c) && (c <=? 13)        (* \t \n \v \f \r *)
   || (28 <=? c) && (c <=? 32)    (* FS GS RS US and the space *)
   || (c =? 133) || (c =? 160)    (* U+0085, U+00A0 *)
   || (c =? 5760)                 (* U+1680 *)
   || (8192 <=? c) && (c <=? 8202)  (* U+2000 .. U+200A *)
   || (c =? 8232) || (c =? 8233)  (* U+2028, U+2029 *)
   || (c =? 8239) || (c =? 8287)  (* U+202F, U+205F *)
   || (c =? 12288))%N.            (* U+3000 *)

Fixpoint lstrip (s : pystr) : pystr :=
  match s with
  | [] => []
  | c :: s' => if py_isspace c then lstrip s' else s
  end.

Definition rstrip (s : pystr) : pystr := rev (lstrip (rev s)).

(** [s.strip()] *)
Definition strip (s : pystr) : pystr := rstrip (lstrip s).

(* ===================================================================== *)
(** ** Python values *)
(* ===================================================================== *)

(** The values that travel through the script: what the engine may put in
    its result and what the script builds from it.  A [dict] is an
    association list in insertion order (the order in which [json.dumps]
    writes the keys); its keys are strings, as all keys of the script and of
    the engine's result are.  A finite float is given by its exact value. *)
Inductive pyval : Type :=
| PNone
| PBool (b : bool)
| PInt (z : Z)
| PFloat (q : Q)
| PStr (s : pystr)
| PList (l : list pyval)
| PDict (d : list (pystr * pyval)).

Definition pydict : Type := list (pystr * pyval).

(** [type(v).__name__] *)
Definition type_name (v : pyval) : pystr :=
  match v with
  | PNone => lit "NoneType"
  | PBool _ => lit "bool"
  | PInt _ => lit "int"
  | PFloat _ => lit "float"
  | PStr _ => lit "str"
  | PList _ => lit "list"
  | PDict _ => lit "dict"
  end.

(** [bool(v)] *)
Definition truthy (v : pyval) : bool :=
  match v with
  | PNone => false
  | PBool b => b
  | PInt z => negb (z =? 0)%Z
  | PFloat q => negb (Qeq_bool q 0)
  | PStr s => match s with [] => false | _ => true end
  | PList l => match l with [] => false | _ => true end
  | PDict d => match d with [] => false | _ => true end
  end.

(** [d.get(k)], [None] of Rocq standing for an absent key. *)
Fixpoint dict_lookup (k : pystr) (d : pydict) : option pyval :=
  match d with
  | [] => None
  | (k', v) :: d' => if pystr_eqb k k' then Some v else dict_lookup k d'
  end.

(** [k in d] *)
Definition dict_contains (k : pystr) (d : pydict) : bool :=
  match dict_lookup k d with Some _ => true | None => false end.

(** [d.get(k, default)] *)
Definition dict_get (d : pydict) (k : pystr) (default : pyval) : pyval :=
  match dict_lookup k d with Some v => v | None => default end.

Definition dict_keys (d : pydict) : list pystr := map fst d.

(* ===================================================================== *)
(** ** [json.dumps] *)
(* ===================================================================== *)

Definition hex_digit (n : N) : N :=
  (if n <? 10 then 48 + n else 87 + n)%N.   (* 0-9, a-f *)

(** ['\\u{0:04x}'.format(n)] *)
Definition escape_u (n : N) : pystr :=
  [92; 117;
   hex_digit ((n / 4096) mod 16); hex_digit ((n / 256) mod 16);
   hex_digit ((n / 16) mod 16); hex_digit (n mod 16)]%N.

(** The replacement of one character inside a JSON string.  The short
    escapes and the control characters are replaced in both modes; with
    [ensure_ascii] every character outside the range space..tilde is
    written as [\uXXXX], through a surrogate pair above the basic plane. *)
Definition escape_char (ensure_ascii : bool) (c : N) : pystr :=
  (if c =? 34 then [92; 34] else   (* backslash, double quote *)
   if c =? 92 then lit "\\" else
   if c =? 10 then lit "\n" else
   if c =? 13 then lit "\r" else
   if c =? 9 then lit "\t" else
   if c =? 12 then lit "\f" else
   if c =? 8 then lit "\b" else
   if c <? 32 then escape_u c else
   if ensure_ascii && (126 <? c) then
     if c <? 65536 then escape_u c
     else escape_u (55296 + ((c - 65536) / 1024) mod 1024)
          ++ escape_u (56320 + (c - 65536) mod 1024)
   else [c])%N.

Definition encode_string (ensure_ascii : bool) (s : pystr) : pystr :=
  [34%N] ++ flat_map (escape_char ensure_ascii) s ++ [34%N].

(** [str(z)] for an [int] *)
Definition int_str (z : Z) : pystr := lit (NilZero.string_of_int (Z.to_int z)).

(** [sep.join(parts)] *)
Fixpoint join (sep : pystr) (parts : list pystr) : pystr :=
  match parts with
  | [] => []
  | [p] => p
  | p :: ps => p ++ sep ++ join sep ps
  end.

Section Json.
(** [float.__repr__], which belongs to the interpreter. *)
Variable float_repr : Q -> pystr.
(** The keyword arguments of [json.dumps]. *)
Variable indent : option nat.
Variable ensure_ascii : bool.

Definition newline_indent (level : nat) : pystr :=
  match indent with
  | None => []
  | Some n => 10%N :: repeat 32%N (n * level)
  end.

(** The default separators: [(', ', ': ')] without [indent] and
    [(',', ': ')] with it. *)
Definition item_separator : pystr :=
  match indent with None => lit ", " | Some _ => lit "," end.

Definition key_separator : pystr := lit ": ".

Fixpoint encode (level : nat) (v : pyval) : pystr :=
  match v with
  | PNone => lit "null"
  | PBool true => lit "true"
  | PBool false => lit "false"
  | PInt z => int_str z
  | PFloat q => float_repr q
  | PStr s => encode_string ensure_ascii s
  | PList [] => lit "[]"
  | PList l =>
      lit "[" ++ newline_indent (S level)
      ++ join (item_separator ++ newline_indent (S level))
              (map (encode (S level)) l)
      ++ newline_indent level ++ lit "]"
  | PDict [] => lit "{}"
  | PDict d =>
      lit "{" ++ newline_indent (S level)
      ++ join (item_separator ++ newline_indent (S level))
              (map (fun kv => encode_string ensure_ascii (fst kv)
                              ++ key_separator ++ encode (S level) (snd kv)) d)
      ++ newline_indent level ++ lit "}"
  end.

Definition json_dumps (v : pyval) : pystr := encode 0 v.
End Json.

(* ===================================================================== *)
(** ** Exceptions, outcomes and the trace of effects *)
(* ===================================================================== *)

(** A raised exception, as far as the script can tell exceptions apart:
    the clause [except Exception as e] asks whether the class derives from
    [Exception], and the handler uses [str(e)].  [sys.exit(code)] raises
    [SystemExit], which derives from [BaseException] only, as do
    [KeyboardInterrupt] and [GeneratorExit]. *)
Inductive pyexc : Type :=
| Exc (cls : string) (msg : pystr)       (* an instance of [Exception]; [msg] is [str(e)] *)
| SystemExit (code : Z)
| BaseExc (cls : string) (msg : pystr).  (* any other [BaseException] *)

(** [isinstance(e, Exception)] *)
Definition isinstance_Exception (e : pyexc) : bool :=
  match e with Exc _ _ => true | _ => false end.

(** [str(e)] *)
Definition exc_str (e : pyexc) : pystr :=
  match e with
  | Exc _ msg => msg
  | SystemExit code => int_str code
  | BaseExc _ msg => msg
  end.

Inductive outcome (A : Type) : Type :=
| Returns (a : A)
| Raises (e : pyexc).
Arguments Raises {A} e.

(** What an observer of the process sees, in order. *)
Inductive event : Type :=
| EvExists (path : pystr)                       (* [os.path.exists(path)] *)
| EvLoadModel (name : pystr)                    (* [whisper.load_model(name)] *)
| EvTranscribe (path : pystr) (options : pydict)  (* [model.transcribe(path, **options)] *)
| EvStdout (text : pystr).                      (* text written to standard output *)

(** A computation: the events it caused and how it ended. *)
Definition M (A : Type) : Type := (list event * outcome A)%type.

Definition ret {A} (a : A) : M A := ([], Returns a).

Definition raise {A} (e : pyexc) : M A := ([], Raises e).

Definition bind {A B} (m : M A) (f : A -> M B) : M B :=
  match m with
  | (tr, Returns a) => let (tr', r) := f a in (tr ++ tr', r)
  | (tr, Raises e) => (tr, Raises e)
  end.

Definition emit (ev : event) : M unit := ([ev], Returns tt).

(** An outcome of a collaborator, entered in the trace under [ev]. *)
Definition call {A} (ev : event) (o : outcome A) : M A := ([ev], o).

(** An operation of the script itself, which causes no event. *)
Definition pure {A} (o : outcome A) : M A := ([], o).

(** [try: body except Exception as e: handler(e)] *)
Definition try_except_Exception {A} (body : M A) (handler : pyexc -> M A) : M A :=
  match body with
  | (tr, Raises e) =>
      if isinstance_Exception e
      then let (tr', r) := handler e in (tr ++ tr', r)
      else (tr, Raises e)
  | done => done
  end.

Declare Scope py_scope.
Delimit Scope py_scope with py.
Notation "x <- m ;; k" := (bind m (fun x => k))
  (at level 61, m at next level, right associativity) : py_scope.
Notation "m ;;; k" := (bind m (fun _ => k))
  (at level 61, right associativity) : py_scope.

(** [for x in xs: ys.append(f(x))], stopping at the first exception. *)
Fixpoint for_each {A B} (f : A -> outcome B) (xs : list A) : outcome (list B) :=
  match xs with
  | [] => Returns []
  | x :: xs' =>
      match f x with
      | Raises e => Raises e
      | Returns y =>
          match for_each f xs' with
          | Raises e => Raises e
          | Returns ys => Returns (y :: ys)
          end
      end
  end.

Definition obind {A B} (o : outcome A) (f : A -> outcome B) : outcome B :=
  match o with
  | Returns a => f a
  | Raises e => Raises e
  end.

Notation "'let*' x ':=' o 'in' k" := (obind o (fun x => k))
  (at level 10, x name, o at level 100, k at level 200) : py_scope.

Local Open Scope py_scope.

(* ===================================================================== *)
(** ** The operations of Python the script applies to the engine's data *)
(* ===================================================================== *)

(** ["'T' object has no attribute 'a'"] *)
Definition AttributeError (v : pyval) (attr : string) : pyexc :=
  Exc "AttributeError"
      (lit "'" ++ type_name v ++ lit "' object has no attribute '"
       ++ lit attr ++ lit "'").

(** [result[key]] on a dict; [str] of a [KeyError] is the [repr] of the
    key, which for the plain keys of this script is the key in quotes. *)
Definition py_getitem (d : pydict) (key : pystr) : outcome pyval :=
  match dict_lookup key d with
  | Some v => Returns v
  | None => Raises (Exc "KeyError" (lit "'" ++ key ++ lit "'"))
  end.

(** [v.get(key, default)] *)
Definition py_get (v : pyval) (key : pystr) (default : pyval) : outcome pyval :=
  match v with
  | PDict d => Returns (dict_get d key default)
  | _ => Raises (AttributeError v "get")
  end.

(** [v.strip()] *)
Definition py_strip (v : pyval) : outcome pyval :=
  match v with
  | PStr s => Returns (PStr (strip s))
  | _ => Raises (AttributeError v "strip")
  end.

(** The elements a [for] loop over [v] visits: the items of a list, the
    keys of a dict, the characters of a string. *)
Definition py_iter (v : pyval) : outcome (list pyval) :=
  match v with
  | PList l => Returns l
  | PDict d => Returns (map PStr (dict_keys d))
  | PStr s => Returns (map (fun c => PStr [c]) s)
  | _ => Raises (Exc "TypeError"
                     (lit "'" ++ type_name v ++ lit "' object is not iterable"))
  end.

(* ===================================================================== *)
(** ** The world outside the script *)
(* ===================================================================== *)

(** A loaded model: the object [whisper.load_model] returns, with its
    method [transcribe(audio_path, **options)].  The method returns a dict,
    as Whisper's does; which keys it holds and what values they carry is
    left open. *)
Record Model : Type := {
  model_transcribe : pystr -> pydict -> outcome pydict
}.

Record World : Type := {
  os_path_exists : pystr -> bool;               (* [os.path.exists] *)
  whisper_load_model : pystr -> outcome Model;  (* [whisper.load_model] *)
  float_repr : Q -> pystr                       (* [float.__repr__] *)
}.

(* ===================================================================== *)
(** ** The script *)
(* ===================================================================== *)

(** The two-key dictionary of both [return] statements that report a
    failure. *)
Definition failure (msg : pystr) : pydict :=
  [(lit "success", PBool false); (lit "error", PStr msg)].

(** Lines 38-40: [options = {}], then [if language: options["language"] =
    language].  The test is the truth value of [language]: [None] and the
    empty string are both false. *)
Definition build_options (language : option pystr) : pydict :=
  match language with
  | None => []
  | Some code => if truthy (PStr code) then [(lit "language", PStr code)] else []
  end.

(** Lines 48-52: the dictionary appended for one segment. *)
Definition reshape_segment (segment : pyval) : outcome pyval :=
  let* start := py_get segment (lit "start") (PInt 0) in
  let* end_ := py_get segment (lit "end") (PInt 0) in
  let* text := py_get segment (lit "text") (PStr []) in
  let* text := py_strip text in
  Returns (PDict [(lit "start", start); (lit "end", end_); (lit "text", text)]).

(** Lines 45-52. *)
Definition extract_segments (result : pydict) : outcome (list pyval) :=
  if dict_contains (lit "segments") result then
    let* raw := py_getitem result (lit "segments") in
    let* items := py_iter raw in
    for_each reshape_segment items
  else Returns [].

(** Lines 28-60, the body of the [try]. *)
Definition transcribe_audio_body (w : World) (audio_path model : pystr)
    (language : option pystr) : M pydict :=
  found <- call (EvExists audio_path) (Returns (os_path_exists w audio_path)) ;;
  if negb found then
    ret (failure (lit "Audio file not found: " ++ audio_path))
  else
    model_instance <- call (EvLoadModel model) (whisper_load_model w model) ;;
    let options := build_options language in
    result <- call (EvTranscribe audio_path options)
                   (model_transcribe model_instance audio_path options) ;;
    segments <- pure (extract_segments result) ;;
    text <- pure (let* t := py_getitem result (lit "text") in py_strip t) ;;
    ret [(lit "success", PBool true);
         (lit "text", text);
         (lit "language", dict_get result (lit "language") (PStr (lit "unknown")));
         (lit "segments", PList segments);
         (lit "model_used", PStr model)].

(** Lines 14-66. *)
Definition transcribe_audio (w : World) (audio_path model : pystr)
    (language : option pystr) : M pydict :=
  try_except_Exception
    (transcribe_audio_body w audio_path model language)
    (fun e => ret (failure (lit "Transcription failed: " ++ exc_str e))).

(** [print(s)] *)
Definition print (s : pystr) : M unit := emit (EvStdout (s ++ [10%N])).

(** [sys.exit(code)] *)
Definition sys_exit {A} (code : Z) : M A := raise (SystemExit code).

Definition usage_message : pystr :=
  lit "Usage: python whisper_transcribe.py <audio_file> [model] [language]".

(** Line 78: [sys.argv[2] if len(sys.argv) > 2 else "tiny"]. *)
Definition argv_model (argv : list pystr) : pystr :=
  if (2 <? List.length argv)%nat then nth 2 argv [] else lit "tiny".

(** Line 79: [sys.argv[3] if len(sys.argv) > 3 else None]. *)
Definition argv_language (argv : list pystr) : option pystr :=
  if (3 <? List.length argv)%nat then Some (nth 3 argv []) else None.

(** Lines 68-88; [argv] is [sys.argv], the script's name first. *)
Definition main (w : World) (argv : list pystr) : M unit :=
  if (List.length argv <? 2)%nat then
    print (json_dumps (float_repr w) None true (PDict (failure usage_message))) ;;;
    sys_exit 1
  else
    let audio_path := nth 1 argv [] in
    let model := argv_model argv in
    let language := argv_language argv in
    result <- transcribe_audio w audio_path model language ;;
    print (json_dumps (float_repr w) (Some 2%nat) false (PDict result)) ;;;
    success <- pure (py_getitem result (lit "success")) ;;
    sys_exit (if truthy success then 0 else 1)%Z.

(** The status with which the interpreter ends the process: the code of a
    [SystemExit], 0 when the script runs to its end, 1 after the traceback
    of an uncaught [Exception].  For other uncaught exceptions (a
    [KeyboardInterrupt] ends the process through the signal) no status is
    given here. *)
Definition exit_status (run : M unit) : option Z :=
  match snd run with
  | Returns _ => Some 0%Z
  | Raises (SystemExit code) => Some code
  | Raises (Exc _ _) => Some 1%Z
  | Raises (BaseExc _ _) => None
  end.

(** The writes to standard output, in order. *)
Fixpoint stdout_of (tr : list event) : list pystr :=
  match tr with
  | [] => []
  | EvStdout text :: tr' => text :: stdout_of tr'
  | _ :: tr' => stdout_of tr'
  end.

(** The calls of the engine's [transcribe], in order. *)
Fixpoint transcribe_calls (tr : list event) : list (pystr * pydict) :=
  match tr with
  | [] => []
  | EvTranscribe path options :: tr' => (path, options) :: transcribe_calls tr'
  | _ :: tr' => transcribe_calls tr'
  end.


(* ===================================================================== *)
(** ** Properties the specification speaks of *)
(* ===================================================================== *)


(** One line on standard output: [print(json.dumps(d, indent=2,
    ensure_ascii=False))]. *)
Definition indented_document (w : World) (d : pydict) : pystr :=
  json_dumps (float_repr w) (Some 2%nat) false (PDict d) ++ [10%N].

(** One line on standard output: [print(json.dumps(d))]. *)
Definition compact_document (w : World) (d : pydict) : pystr :=
  json_dumps (float_repr w) None true (PDict d) ++ [10%N].

(** The value of a Python number; [bool] is a subclass of [int]. *)
Definition num_value (v : pyval) : option Q :=
  match v with
  | PInt z => Some (inject_Z z)
  | PFloat q => Some q
  | PBool b => Some (inject_Z (if b then 1 else 0))
  | _ => None
  end.

(** [a <= b] on numbers; false when either is not a number. *)
Definition num_le (a b : pyval) : bool :=
  match num_value a, num_value b with
  | Some x, Some y => Qle_bool x y
  | _, _ => false
  end.

(** The [start] and [end] of a segment, with the defaults of lines 49-50. *)
Definition timing_of (segment : pyval) : pyval * pyval :=
  match segment with
  | PDict d => (dict_get d (lit "start") (PInt 0), dict_get d (lit "end") (PInt 0))
  | _ => (PNone, PNone)
  end.

(** Starts in non-decreasing order. *)
Fixpoint starts_sorted (times : list (pyval * pyval)) : bool :=
  match times with
  | [] => true
  | t :: rest =>
      match rest with
      | [] => true
      | t' :: _ => num_le (fst t) (fst t') && starts_sorted rest
      end
  end.

(** What the specification asks of the timing of a list of segments: in
    each one [0 <= start <= end], and the starts never decrease. *)
Definition times_ok (times : list (pyval * pyval)) : bool :=
  forallb (fun t => num_le (PInt 0) (fst t) && num_le (PInt 0) (snd t)
                    && num_le (fst t) (snd t)) times
  && starts_sorted times.

Definition segment_times_ok (segments : list pyval) : bool :=
  times_ok (map timing_of segments).

(** The segments the loop of lines 46-47 visits in the engine's result. *)
Definition engine_segments (result : pydict) : outcome (list pyval) :=
  if dict_contains (lit "segments") result then
    let* raw := py_getitem result (lit "segments") in py_iter raw
  else Returns [].

(** An output segment [o] is the engine's segment [s] with its text
    trimmed: same [start] and [end] (0 when the engine gave none), and the
    text of [s] (empty when it gave none) without surrounding whitespace. *)
Definition trimmed_copy (s o : pyval) : Prop :=
  exists d t,
    s = PDict d
    /\ dict_get d (lit "text") (PStr []) = PStr t
    /\ o = PDict [(lit "start", dict_get d (lit "start") (PInt 0));
                  (lit "end", dict_get d (lit "end") (PInt 0));
                  (lit "text", PStr (strip t))].

(** The calls of [whisper.load_model], in order. *)
Fixpoint load_calls (tr : list event) : list pystr :=
  match tr with
  | [] => []
  | EvLoadModel name :: tr' => name :: load_calls tr'
  | _ :: tr' => load_calls tr'
  end.

(* ===================================================================== *)
(** ** Sample worlds *)
(* ===================================================================== *)

(** [repr] of the few floats the samples use. *)
Definition sample_float_repr (q : Q) : pystr :=
  if Qeq_bool q 0 then lit "0.0"
  else if Qeq_bool q (5 # 2) then lit "2.5"
  else if Qeq_bool q (7 # 1) then lit "7.0"
  else lit "1.0".

(** A machine with no audio file and no model. *)
Definition empty_disk : World := {|
  os_path_exists := fun _ => false;
  whisper_load_model := fun name =>
    Raises (Exc "RuntimeError" (lit "Model " ++ name ++ lit " not found"));
  float_repr := sample_float_repr
|}.

(** A world in which every path exists and every model loads, all models
    behaving as [model_instance]. *)
Definition world_with (model_instance : Model) : World := {|
  os_path_exists := fun _ => true;
  whisper_load_model := fun _ => Returns model_instance;
  float_repr := sample_float_repr
|}.


(** An engine that hears two segments. *)
Definition two_segment_model : Model := {|
  model_transcribe := fun _ options =>
    Returns
      [(lit "text", PStr (lit " Bonjour tout le monde. "));
       (lit "segments",
        PList [PDict [(lit "id", PInt 0); (lit "start", PFloat 0);
                      (lit "end", PFloat (5 # 2)); (lit "text", PStr (lit " Bonjour"))];
               PDict [(lit "id", PInt 1); (lit "start", PFloat (5 # 2));
                      (lit "end", PFloat (7 # 1)); (lit "text", PStr (lit " tout le monde."))]]);
       (lit "language", dict_get options (lit "language") (PStr (lit "fr")))]
|}.

(** An engine whose only segment ends before it starts. *)
Definition backwards_model : Model := {|
  model_transcribe := fun _ _ =>
    Returns
      [(lit "text", PStr (lit "hm"));
       (lit "segments",
        PList [PDict [(lit "start", PInt 5); (lit "end", PInt 2);
                      (lit "text", PStr (lit "hm"))]]);
       (lit "language", PStr (lit "en"))]
|}.

(** An engine interrupted from the keyboard during inference. *)
Definition interrupted_model : Model := {|
  model_transcribe := fun _ _ => Raises (BaseExc "KeyboardInterrupt" [])
|}.

(** An engine that fails during inference. *)
Definition crashing_model : Model := {|
  model_transcribe := fun _ _ =>
    Raises (Exc "RuntimeError" (lit "Failed to load audio"))
|}.

Definition script_name : pystr := lit "whisper_transcribe.py".
Definition sample_audio : pystr := lit "memo.wav".

(* ===================================================================== *)
(** ** The paths through the body of [transcribe_audio] *)
(* ===================================================================== *)

(** Line 56, [result["text"].strip()]. *)
Definition result_text (result : pydict) : outcome pyval :=
  let* t := py_getitem result (lit "text") in py_strip t.

(** The dictionary of lines 54-60. *)
Definition success_dict (result : pydict) (segments : list pyval) (text : pyval)
    (model : pystr) : pydict :=
  [(lit "success", PBool true);
   (lit "text", text);
   (lit "language", dict_get result (lit "language") (PStr (lit "unknown")));
   (lit "segments", PList segments);
   (lit "model_used", PStr model)].

(** Every run of the body takes one of six paths; each is given with the
    trace it leaves and the way it ends. *)
Inductive body_path (w : World) (audio_path model : pystr)
    (language : option pystr) : M pydict -> Prop :=
| path_missing :
    os_path_exists w audio_path = false ->
    body_path w audio_path model language
      ([EvExists audio_path],
       Returns (failure (lit "Audio file not found: " ++ audio_path)))
| path_load_raises e :
    os_path_exists w audio_path = true ->
    whisper_load_model w model = Raises e ->
    body_path w audio_path model language
      ([EvExists audio_path; EvLoadModel model], Raises e)
| path_transcribe_raises model_instance e :
    os_path_exists w audio_path = true ->
    whisper_load_model w model = Returns model_instance ->
    model_transcribe model_instance audio_path (build_options language) = Raises e ->
    body_path w audio_path model language
      ([EvExists audio_path; EvLoadModel model;
        EvTranscribe audio_path (build_options language)], Raises e)
| path_segments_raise model_instance result e :
    os_path_exists w audio_path = true ->
    whisper_load_model w model = Returns model_instance ->
    model_transcribe model_instance audio_path (build_options language) = Returns result ->
    extract_segments result = Raises e ->
    body_path w audio_path model language
      ([EvExists audio_path; EvLoadModel model;
        EvTranscribe audio_path (build_options language)], Raises e)
| path_text_raises model_instance result segments e :
    os_path_exists w audio_path = true ->
    whisper_load_model w model = Returns model_instance ->
    model_transcribe model_instance audio_path (build_options language) = Returns result ->
    extract_segments result = Returns segments ->
    result_text result = Raises e ->
    body_path w audio_path model language
      ([EvExists audio_path; EvLoadModel model;
        EvTranscribe audio_path (build_options language)], Raises e)
| path_success model_instance result segments text :
    os_path_exists w audio_path = true ->
    whisper_load_model w model = Returns model_instance ->
    model_transcribe model_instance audio_path (build_options language) = Returns result ->
    extract_segments result = Returns segments ->
    result_text result = Returns text ->
    body_path w audio_path model language
      ([EvExists audio_path; EvLoadModel model;
        EvTranscribe audio_path (build_options language)],
       Returns (success_dict result segments text model)).

(* ===================================================================== *)
(** ** Notions for the properties of the result *)
(* ===================================================================== *)

(** A string that neither begins nor ends with whitespace. *)
Definition trimmed (s : pystr) : bool :=
  match s with
  | [] => true
  | c :: _ => negb (py_isspace c) && negb (py_isspace (last s c))
  end.

(** [t] is [s] with whitespace taken off its two ends and nothing else. *)
Definition trimming_of (s t : pystr) : Prop :=
  exists before after,
    s = before ++ t ++ after
    /\ forallb py_isspace before = true
    /\ forallb py_isspace after = true
    /\ trimmed t = true.


(** A segment of the engine that lines 48-52 can reshape: a dict whose
    [text], if it has one, is a string. *)
Definition segment_usable (segment : pyval) : bool :=
  match segment with
  | PDict d =>
      match dict_get d (lit "text") (PStr []) with
      | PStr _ => true
      | _ => false
      end
  | _ => false
  end.

(** A result of the engine that lines 45-60 turn into a success: its
    [text] is a string, and its [segments], if it has any, can be iterated
    and are all usable. *)
Definition usable_result (result : pydict) : bool :=
  match dict_lookup (lit "text") result with
  | Some (PStr _) =>
      match engine_segments result with
      | Returns items => forallb segment_usable items
      | Raises _ => false
      end
  | _ => false
  end.

(** The keys of the segments of an output. *)
Definition segment_keys (segment : pyval) : list pystr :=
  match segment with
  | PDict d => dict_keys d
  | _ => []
  end.

(** The text of a segment of the engine, empty when it has none (line 51
    before the [strip]). *)
Definition segment_text (segment : pyval) : pyval :=
  match segment with
  | PDict d => dict_get d (lit "text") (PStr [])
  | _ => PNone
  end.

(** The output text [o] is the trimming of the engine's text [s]. *)
Definition text_trimming (s o : pyval) : Prop :=
  exists raw out, s = PStr raw /\ o = PStr out /\ trimming_of raw out.

(** A segment-less engine: it returns whatever [result] it is given. *)
Definition constant_model (result : pydict) : Model := {|
  model_transcribe := fun _ _ => Returns result
|}.

(* ===================================================================== *)
(** * Lemmas *)
(* ===================================================================== *)

Lemma pystr_eqb_eq (a b : pystr) : pystr_eqb a b = true <-> a = b.
Proof.
  revert b. induction a as [|x a IH]; intros [|y b]; simpl; split;
    try congruence; try reflexivity.
  - intros H. apply andb_true_iff in H. destruct H as [Hxy Hab].
    apply N.eqb_eq in Hxy. apply IH in Hab. congruence.
  - intros H. injection H as -> ->. rewrite N.eqb_refl. simpl.
    apply IH. reflexivity.
Qed.

Lemma transcribe_audio_body_path w audio_path model language :
  body_path w audio_path model language
            (transcribe_audio_body w audio_path model language).
Proof.
  unfold transcribe_audio_body, call, pure, bind, ret.
  destruct (os_path_exists w audio_path) eqn:Hex; simpl.
  - destruct (whisper_load_model w model) as [mi|e] eqn:Hload; simpl.
    + destruct (model_transcribe mi audio_path (build_options language))
        as [res|e] eqn:Htr; simpl.
      * destruct (extract_segments res) as [segs|e] eqn:Hseg; simpl.
        -- fold (result_text res).
           destruct (result_text res) as [text|e] eqn:Htext; simpl.
           ++ eapply path_success; eauto.
           ++ eapply path_text_raises; eauto.
        -- eapply path_segments_raise; eauto.
      * eapply path_transcribe_raises; eauto.
    + apply path_load_raises; assumption.
  - apply path_missing; assumption.
Qed.

(** The handler of [transcribe_audio], spelled out on the outcome of the
    body. *)
Lemma transcribe_audio_handler w audio_path model language :
  transcribe_audio w audio_path model language =
  match transcribe_audio_body w audio_path model language with
  | (tr, Raises e) =>
      if isinstance_Exception e
      then (tr, Returns (failure (lit "Transcription failed: " ++ exc_str e)))
      else (tr, Raises e)
  | done => done
  end.
Proof.
  unfold transcribe_audio, try_except_Exception.
  destruct (transcribe_audio_body w audio_path model language) as [tr [r|e]];
    [reflexivity|].
  destruct (isinstance_Exception e); [|reflexivity].
  unfold ret. rewrite app_nil_r. reflexivity.
Qed.

(** The exceptions of the script's own operations are [Exception]s. *)
Lemma py_get_raises v key default e :
  py_get v key default = Raises e -> isinstance_Exception e = true.
Proof. destruct v; simpl; intros H; inversion H; reflexivity. Qed.

Lemma py_strip_raises v e :
  py_strip v = Raises e -> isinstance_Exception e = true.
Proof. destruct v; simpl; intros H; inversion H; reflexivity. Qed.

Lemma py_iter_raises v e :
  py_iter v = Raises e -> isinstance_Exception e = true.
Proof. destruct v; simpl; intros H; inversion H; reflexivity. Qed.

Lemma py_getitem_raises d key e :
  py_getitem d key = Raises e -> isinstance_Exception e = true.
Proof.
  unfold py_getitem. destruct (dict_lookup key d); intros H; inversion H.
  reflexivity.
Qed.

Lemma reshape_segment_raises s e :
  reshape_segment s = Raises e -> isinstance_Exception e = true.
Proof.
  unfold reshape_segment.
  destruct (py_get s (lit "start") (PInt 0)) eqn:H1; simpl;
    [|intros H; inversion H; subst; eapply py_get_raises; eassumption].
  destruct (py_get s (lit "end") (PInt 0)) eqn:H2; simpl;
    [|intros H; inversion H; subst; eapply py_get_raises; eassumption].
  destruct (py_get s (lit "text") (PStr [])) as [t|] eqn:H3; simpl;
    [|intros H; inversion H; subst; eapply py_get_raises; eassumption].
  destruct (py_strip t) eqn:H4; simpl; intros H; inversion H; subst.
  eapply py_strip_raises; eassumption.
Qed.

Lemma for_each_raises {A B} (f : A -> outcome B) xs e :
  (forall x e', f x = Raises e' -> isinstance_Exception e' = true) ->
  for_each f xs = Raises e -> isinstance_Exception e = true.
Proof.
  intros Hf. induction xs as [|x xs IH]; simpl; [discriminate|].
  destruct (f x) eqn:Hx.
  - destruct (for_each f xs); [discriminate|].
    intros H; inversion H; subst. apply IH. reflexivity.
  - intros H; inversion H; subst. eapply Hf; eassumption.
Qed.

Lemma extract_segments_raises result e :
  extract_segments result = Raises e -> isinstance_Exception e = true.
Proof.
  unfold extract_segments.
  destruct (dict_contains (lit "segments") result); [|discriminate].
  destruct (py_getitem result (lit "segments")) as [raw|] eqn:Hraw; simpl;
    [|intros H; inversion H; subst; eapply py_getitem_raises; eassumption].
  destruct (py_iter raw) as [items|] eqn:Hit; simpl;
    [|intros H; inversion H; subst; eapply py_iter_raises; eassumption].
  apply for_each_raises. apply reshape_segment_raises.
Qed.

Lemma result_text_raises result e :
  result_text result = Raises e -> isinstance_Exception e = true.
Proof.
  unfold result_text.
  destruct (py_getitem result (lit "text")) as [t|] eqn:Ht; simpl;
    [|intros H; inversion H; subst; eapply py_getitem_raises; eassumption].
  apply py_strip_raises.
Qed.

(** What a segment that went through lines 48-52 looks like. *)
Lemma reshape_segment_returns s o :
  reshape_segment s = Returns o -> trimmed_copy s o.
Proof.
  destruct s; simpl; try discriminate.
  unfold reshape_segment; simpl.
  destruct (dict_get d (lit "text") (PStr [])) eqn:Ht; simpl; try discriminate.
  intros H; inversion H; subst. exists d, s. auto.
Qed.

Lemma for_each_Forall2 {A B} (f : A -> outcome B) (R : A -> B -> Prop) xs ys :
  (forall x y, f x = Returns y -> R x y) ->
  for_each f xs = Returns ys -> Forall2 R xs ys.
Proof.
  intros Hf. revert ys. induction xs as [|x xs IH]; simpl; intros ys H.
  - inversion H. constructor.
  - destruct (f x) eqn:Hx; [|discriminate].
    destruct (for_each f xs) eqn:Hxs; [|discriminate].
    inversion H; subst. constructor; auto.
Qed.

(** The loop of lines 45-52 copies the engine's segments one by one. *)
Lemma extract_segments_returns result segments :
  extract_segments result = Returns segments ->
  exists items,
    engine_segments result = Returns items
    /\ Forall2 trimmed_copy items segments.
Proof.
  unfold extract_segments, engine_segments.
  destruct (dict_contains (lit "segments") result).
  - destruct (py_getitem result (lit "segments")) as [raw|]; simpl;
      [|discriminate].
    destruct (py_iter raw) as [items|]; simpl; [|discriminate].
    intros H. exists items. split; [reflexivity|].
    eapply for_each_Forall2; [|eassumption]. apply reshape_segment_returns.
  - intros H; inversion H. exists []. split; [reflexivity|constructor].
Qed.

(** What [transcribe_audio] can return. *)
Lemma transcribe_audio_returns w audio_path model language tr r :
  transcribe_audio w audio_path model language = (tr, Returns r) ->
  (exists msg, r = failure msg /\ msg <> [])
  \/ (exists model_instance result segments text,
        os_path_exists w audio_path = true
        /\ whisper_load_model w model = Returns model_instance
        /\ model_transcribe model_instance audio_path (build_options language)
           = Returns result
        /\ extract_segments result = Returns segments
        /\ result_text result = Returns text
        /\ tr = [EvExists audio_path; EvLoadModel model;
                 EvTranscribe audio_path (build_options language)]
        /\ r = success_dict result segments text model).
Proof.
  rewrite transcribe_audio_handler.
  destruct (transcribe_audio_body_path w audio_path model language)
    as [Hex|e' Hex Hl|mi e' Hex Hl Ht|mi res e' Hex Hl Ht Hs
        |mi res segs e' Hex Hl Ht Hs Hx|mi res segs text Hex Hl Ht Hs Hx];
    try (destruct (isinstance_Exception e'); intros E; inversion E; subst;
         left; eexists; split; [reflexivity|discriminate]).
  - intros E; inversion E; subst. left.
    eexists; split; [reflexivity|discriminate].
  - intros E; inversion E; subst. right.
    exists mi, res, segs, text. auto 10.
Qed.

(** What [transcribe_audio] lets through: something the engine raised that
    is not an [Exception]. *)
Lemma transcribe_audio_raises w audio_path model language tr e :
  transcribe_audio w audio_path model language = (tr, Raises e) ->
  isinstance_Exception e = false
  /\ os_path_exists w audio_path = true
  /\ (whisper_load_model w model = Raises e
      \/ exists model_instance,
           whisper_load_model w model = Returns model_instance
           /\ model_transcribe model_instance audio_path (build_options language)
              = Raises e).
Proof.
  rewrite transcribe_audio_handler.
  destruct (transcribe_audio_body_path w audio_path model language)
    as [Hex|e' Hex Hl|mi e' Hex Hl Ht|mi res e' Hex Hl Ht Hs
        |mi res segs e' Hex Hl Ht Hs Hx|mi res segs text Hex Hl Ht Hs Hx];
    try discriminate.
  - destruct (isinstance_Exception e') eqn:Hi; intros H; inversion H; subst.
    auto.
  - destruct (isinstance_Exception e') eqn:Hi; intros H; inversion H; subst.
    eauto 6.
  - rewrite (extract_segments_raises _ Hs). discriminate.
  - rewrite (result_text_raises _ Hx). discriminate.
Qed.


(** [main] after the argument check, in terms of what [transcribe_audio]
    did. *)
Lemma main_after_transcribe (w : World) (argv : list pystr) :
  (2 <= List.length argv)%nat ->
  main w argv =
  match transcribe_audio w (nth 1 argv []) (argv_model argv) (argv_language argv) with
  | (tr, Returns r) =>
      match py_getitem r (lit "success") with
      | Returns s =>
          (tr ++ [EvStdout (indented_document w r)],
           Raises (SystemExit (if truthy s then 0 else 1)))
      | Raises e => (tr ++ [EvStdout (indented_document w r)], Raises e)
      end
  | (tr, Raises e) => (tr, Raises e)
  end.
Proof.
  intros Hlen. unfold main.
  destruct (List.length argv <? 2)%nat eqn:E;
    [apply Nat.ltb_lt in E; lia|].
  unfold bind, print, emit, pure, sys_exit, raise, indented_document.
  destruct (transcribe_audio w (nth 1 argv []) (argv_model argv)
              (argv_language argv)) as [tr [r|e]]; [|reflexivity].
  destruct (py_getitem r (lit "success")); simpl; rewrite ?app_nil_r;
    reflexivity.
Qed.

Lemma main_usage (w : World) (argv : list pystr) :
  (List.length argv < 2)%nat ->
  main w argv =
  ([EvStdout (compact_document w (failure usage_message))],
   Raises (SystemExit 1)).
Proof.
  intros Hlen. unfold main.
  destruct (List.length argv <? 2)%nat eqn:E;
    [|apply Nat.ltb_ge in E; lia].
  reflexivity.
Qed.

(** Every call of [transcribe_audio] begins by asking whether the file
    exists, and so shows in the trace. *)
Lemma transcribe_audio_trace (w : World) (audio_path model : pystr)
    (language : option pystr) :
  exists rest,
    fst (transcribe_audio w audio_path model language) = EvExists audio_path :: rest.
Proof.
  rewrite transcribe_audio_handler.
  destruct (transcribe_audio_body_path w audio_path model language);
    try (destruct (isinstance_Exception e)); simpl; eauto.
Qed.



(* ===================================================================== *)
(** * The command line: what is printed and how the process ends *)
(* ===================================================================== *)


(** The other documents are printed with [indent=2]. *)
Example missing_file_output_text :
  stdout_of (fst (main empty_disk [script_name; sample_audio])) =
  [dq "{
  'success': false,
  'error': 'Audio file not found: memo.wav'
}
"].
Proof. reflexivity. Qed.

Example success_output_text :
  stdout_of (fst (main (world_with two_segment_model)
                       [script_name; sample_audio])) =
  [dq "{
  'success': true,
  'text': 'Bonjour tout le monde.',
  'language': 'fr',
  'segments': [
    {
      'start': 0.0,
      'end': 2.5,
      'text': 'Bonjour'
    },
    {
      'start': 2.5,
      'end': 7.0,
      'text': 'tout le monde.'
    }
  ],
  'model_used': 'tiny'
}
"].
Proof. reflexivity. Qed.









(** C3.  For every invocation without a positional argument the program
    prints the usage error, a JSON object with [success] false, and exits
    with status 1.  [transcribe_audio] is not called: the print is the only
    event, while every call of [transcribe_audio] leaves its events in the
    trace. *)
Theorem usage_error_reported (w : World) (argv : list pystr) :
  (List.length argv < 2)%nat ->
  fst (main w argv) =
    [EvStdout (json_dumps (float_repr w) None true
                 (PDict [(lit "success", PBool false);
                         (lit "error", PStr usage_message)])
               ++ [10%N])]
  /\ exit_status (main w argv) = Some 1%Z
  /\ forall audio_path model language,
       ~ incl (fst (transcribe_audio w audio_path model language))
              (fst (main w argv)).
Proof.
  intros Hlen. rewrite (main_usage w argv Hlen).
  split; [reflexivity|]. split; [reflexivity|].
  intros audio_path model language Hincl.
  destruct (transcribe_audio_trace w audio_path model language) as [rest Htr].
  rewrite Htr in Hincl.
  destruct (Hincl (EvExists audio_path) (or_introl eq_refl)) as [H|[]].
  discriminate.
Qed.

Lemma usage_error_reported_witness :
  (List.length [script_name] < 2)%nat
  /\ exit_status (main empty_disk [script_name]) = Some 1%Z.
Proof.
  split; [simpl; lia|].
  apply (usage_error_reported empty_disk [script_name]). simpl; lia.
Defined.




Example exit_status_success :
  exit_status (main (world_with two_segment_model) [script_name; sample_audio])
  = Some 0%Z.
Proof. reflexivity. Qed.

Example exit_status_engine_failure :
  exit_status (main (world_with crashing_model) [script_name; sample_audio])
  = Some 1%Z.
Proof. reflexivity. Qed.

(* ===================================================================== *)
(** * The options passed to the engine *)
(* ===================================================================== *)

Lemma build_options_cases language :
  (language = None /\ build_options language = [])
  \/ (language = Some [] /\ build_options language = [])
  \/ (exists code, language = Some code /\ code <> []
                   /\ build_options language = [(lit "language", PStr code)]).
Proof.
  destruct language as [[|c code]|].
  - right; left. split; reflexivity.
  - right; right. exists (c :: code). repeat split. discriminate.
  - left. split; reflexivity.
Qed.

(** The calls of the engine's [transcribe] that a call of
    [transcribe_audio] makes: at most one, for the path it was given and
    with the options of lines 38-40. *)
Lemma transcribe_audio_calls (w : World) (audio_path model : pystr)
    (language : option pystr) :
  transcribe_calls (fst (transcribe_audio w audio_path model language)) = []
  \/ transcribe_calls (fst (transcribe_audio w audio_path model language))
     = [(audio_path, build_options language)].
Proof.
  rewrite transcribe_audio_handler.
  destruct (transcribe_audio_body_path w audio_path model language);
    try (destruct (isinstance_Exception e)); simpl; auto.
Qed.

(** When the file exists and the model loads, the call is made. *)
Lemma transcribe_audio_calls_engine (w : World) (audio_path model : pystr)
    (language : option pystr) model_instance :
  os_path_exists w audio_path = true ->
  whisper_load_model w model = Returns model_instance ->
  transcribe_calls (fst (transcribe_audio w audio_path model language))
  = [(audio_path, build_options language)].
Proof.
  intros Hex Hload. rewrite transcribe_audio_handler.
  destruct (transcribe_audio_body_path w audio_path model language);
    try congruence; try (destruct (isinstance_Exception e)); reflexivity.
Qed.

(** C5, as the specification has it, fails: the empty string is a language
    argument that is supplied, not [None], and the options passed to the
    engine do not hold the key [language]. *)
Lemma empty_language_code_not_passed :
  exists options,
    transcribe_calls
      (fst (transcribe_audio (world_with two_segment_model) sample_audio
              (lit "tiny") (Some [])))
    = [(sample_audio, options)]
    /\ dict_lookup (lit "language") options = None.
Proof. exists []. split; reflexivity. Qed.

(** C5 (amended).  In every invocation of [transcribe_audio], the options
    passed to the engine's [transcribe] hold the key [language] bound to the
    code when a non-empty language code is supplied, and are empty when the
    language is omitted ([None]) or is the empty string; in all cases they
    hold at most the one key [language]. *)
Theorem language_option_passed (w : World) (audio_path model : pystr)
    (language : option pystr) (path : pystr) (options : pydict) :
  In (path, options)
     (transcribe_calls (fst (transcribe_audio w audio_path model language))) ->
  (forall code, language = Some code -> code <> [] ->
                options = [(lit "language", PStr code)])
  /\ (language = None \/ language = Some [] -> options = [])
  /\ (List.length options <= 1)%nat
  /\ (forall key, In key (dict_keys options) -> key = lit "language").
Proof.
  intros Hin.
  assert (Hopt : options = build_options language).
  { destruct (transcribe_audio_calls w audio_path model language) as [E|E];
      rewrite E in Hin; simpl in Hin.
    - contradiction.
    - destruct Hin as [Hin|[]]. congruence. }
  subst options.
  destruct (build_options_cases language)
    as [[-> ->]|[[-> ->]|[code [-> [Hne ->]]]]].
  - split; [discriminate|]. split; [reflexivity|].
    split; [simpl; lia|]. intros key [].
  - split; [intros code H Hc; inversion H; subst; contradiction|].
    split; [reflexivity|]. split; [simpl; lia|]. intros key [].
  - split; [intros code' H _; inversion H; reflexivity|].
    split; [intros [H|H]; [discriminate|inversion H; subst; contradiction]|].
    split; [simpl; lia|]. intros key [<-|[]]. reflexivity.
Qed.

Lemma language_option_passed_witness :
  In (sample_audio, [(lit "language", PStr (lit "fr"))])
     (transcribe_calls
        (fst (transcribe_audio (world_with two_segment_model) sample_audio
                (lit "tiny") (Some (lit "fr")))))
  /\ (List.length [(lit "language", PStr (lit "fr"))] <= 1)%nat.
Proof.
  assert (Hin : In (sample_audio, [(lit "language", PStr (lit "fr"))])
                   (transcribe_calls
                      (fst (transcribe_audio (world_with two_segment_model)
                              sample_audio (lit "tiny") (Some (lit "fr")))))).
  { left. reflexivity. }
  split; [exact Hin|].
  exact (proj1 (proj2 (proj2 (language_option_passed _ _ _ _ _ _ Hin)))).
Defined.

(** C10.  The empty string as language behaves as an omitted language: the
    test of line 39 is the truth value of [language], so the options passed
    to the engine are empty, and the whole run of [transcribe_audio], and of
    [main] with an empty fourth argument, is the run without a language. *)
Theorem empty_language_is_omitted (w : World) (audio_path model : pystr) :
  build_options (Some []) = build_options None
  /\ dict_lookup (lit "language") (build_options (Some [])) = None
  /\ transcribe_audio w audio_path model (Some [])
     = transcribe_audio w audio_path model None
  /\ Forall (fun c => snd c = [])
            (transcribe_calls (fst (transcribe_audio w audio_path model (Some []))))
  /\ (forall script,
        fst (main w [script; audio_path; model; []])
        = fst (main w [script; audio_path; model])
        /\ snd (main w [script; audio_path; model; []])
           = snd (main w [script; audio_path; model])).
Proof.
  split; [reflexivity|]. split; [reflexivity|]. split; [reflexivity|].
  split.
  - destruct (transcribe_audio_calls w audio_path model (Some [])) as [E|E];
      rewrite E; repeat constructor.
  - intros script. split; reflexivity.
Qed.

(* ===================================================================== *)
(** * The model selector *)
(* ===================================================================== *)

(** On success the one model loaded is the one named in [model_used]. *)
Lemma model_used_is_loaded (w : World) (audio_path model : pystr)
    (language : option pystr) tr r :
  transcribe_audio w audio_path model language = (tr, Returns r) ->
  dict_lookup (lit "success") r = Some (PBool true) ->
  dict_lookup (lit "model_used") r = Some (PStr model)
  /\ load_calls tr = [model].
Proof.
  intros Hrun Hs.
  destruct (transcribe_audio_returns _ _ _ _ Hrun)
    as [[msg [-> _]]|[mi [res [segs [text [_ [_ [_ [_ [_ [-> ->]]]]]]]]]]].
  - discriminate.
  - split; reflexivity.
Qed.

(** C6.  When the model argument is omitted on the command line the model
    selector is "tiny": the invocation runs as the one that names "tiny".
    On every successful transcription the [model_used] of the output is the
    selector that was passed to the engine's [load_model]. *)
Theorem default_model_and_model_used (w : World) :
  (forall argv : list pystr,
      (List.length argv <= 2)%nat -> argv_model argv = lit "tiny")
  /\ (forall script audio_path : pystr,
        main w [script; audio_path] = main w [script; audio_path; lit "tiny"])
  /\ (forall (audio_path model : pystr) (language : option pystr) tr r,
        transcribe_audio w audio_path model language = (tr, Returns r) ->
        dict_lookup (lit "success") r = Some (PBool true) ->
        dict_lookup (lit "model_used") r = Some (PStr model)
        /\ load_calls tr = [model]).
Proof.
  split; [|split].
  - intros argv Hlen. unfold argv_model.
    destruct (2 <? List.length argv)%nat eqn:E; [|reflexivity].
    apply Nat.ltb_lt in E. lia.
  - reflexivity.
  - intros. eapply model_used_is_loaded; eassumption.
Qed.

Lemma default_model_and_model_used_witness :
  (List.length [script_name; sample_audio] <= 2)%nat
  /\ argv_model [script_name; sample_audio] = lit "tiny"
  /\ exists tr r,
       transcribe_audio (world_with two_segment_model) sample_audio
         (lit "tiny") None = (tr, Returns r)
       /\ dict_lookup (lit "success") r = Some (PBool true)
       /\ dict_lookup (lit "model_used") r = Some (PStr (lit "tiny"))
       /\ load_calls tr = [lit "tiny"].
Proof.
  split; [simpl; lia|]. split.
  - apply (proj1 (default_model_and_model_used empty_disk)). simpl; lia.
  - eexists. eexists. split; [reflexivity|]. split; [reflexivity|].
    apply (proj2 (proj2 (default_model_and_model_used
                           (world_with two_segment_model)))
             sample_audio (lit "tiny") None); reflexivity.
Defined.

(* ===================================================================== *)
(** * The result of [transcribe_audio] *)
(* ===================================================================== *)

Lemma Forall2_trimmed_copy_timing items segments :
  Forall2 trimmed_copy items segments ->
  map timing_of segments = map timing_of items.
Proof.
  induction 1 as [|s o items segments [d [t [-> [_ ->]]]] _ IH];
    [reflexivity|].
  simpl map. rewrite IH. reflexivity.
Qed.

(** C7, as the specification has it, fails: the script copies the times the
    engine gives and checks nothing.  With an engine whose segment starts at
    5 and ends at 2 the output is a success whose segment starts at 5 and
    ends at 2. *)
Lemma backwards_segment_passes_through :
  snd (transcribe_audio (world_with backwards_model) sample_audio
         (lit "tiny") None)
  = Returns [(lit "success", PBool true);
             (lit "text", PStr (lit "hm"));
             (lit "language", PStr (lit "en"));
             (lit "segments",
              PList [PDict [(lit "start", PInt 5); (lit "end", PInt 2);
                            (lit "text", PStr (lit "hm"))]]);
             (lit "model_used", PStr (lit "tiny"))]
  /\ segment_times_ok
       [PDict [(lit "start", PInt 5); (lit "end", PInt 2);
               (lit "text", PStr (lit "hm"))]] = false.
Proof. split; reflexivity. Qed.

(** C7 (amended).  In every successful output the segments are, in the
    engine's order, the segments the engine emitted, each with the [start]
    and the [end] the engine gave it (0 where it gave none).  So every
    segment has [0 <= start <= end] and the starts never decrease exactly
    when that holds of what the engine emitted. *)
Theorem segment_times_follow_engine (w : World) (audio_path model : pystr)
    (language : option pystr) tr r :
  transcribe_audio w audio_path model language = (tr, Returns r) ->
  dict_lookup (lit "success") r = Some (PBool true) ->
  exists model_instance result items segments,
    whisper_load_model w model = Returns model_instance
    /\ model_transcribe model_instance audio_path (build_options language)
       = Returns result
    /\ engine_segments result = Returns items
    /\ dict_lookup (lit "segments") r = Some (PList segments)
    /\ map timing_of segments = map timing_of items
    /\ segment_times_ok segments = segment_times_ok items.
Proof.
  intros Hrun Hs.
  destruct (transcribe_audio_returns _ _ _ _ Hrun)
    as [[msg [-> _]]|[mi [res [segs [text [_ [Hl [Ht [Hseg [_ [_ ->]]]]]]]]]]].
  - discriminate.
  - destruct (extract_segments_returns _ Hseg) as [items [Hitems Hcopy]].
    exists mi, res, items, segs.
    pose proof (Forall2_trimmed_copy_timing Hcopy) as Htimes.
    repeat (split; [eassumption || reflexivity|]).
    unfold segment_times_ok. rewrite Htimes. reflexivity.
Qed.

Lemma segment_times_follow_engine_witness :
  exists tr r,
    transcribe_audio (world_with two_segment_model) sample_audio
      (lit "tiny") None = (tr, Returns r)
    /\ dict_lookup (lit "success") r = Some (PBool true)
    /\ exists model_instance result items segments,
         whisper_load_model (world_with two_segment_model) (lit "tiny")
         = Returns model_instance
         /\ model_transcribe model_instance sample_audio (build_options None)
            = Returns result
         /\ engine_segments result = Returns items
         /\ dict_lookup (lit "segments") r = Some (PList segments)
         /\ map timing_of segments = map timing_of items
         /\ segment_times_ok segments = segment_times_ok items.
Proof.
  eexists. eexists. split; [reflexivity|]. split; [reflexivity|].
  eapply (@segment_times_follow_engine (world_with two_segment_model)
            sample_audio (lit "tiny") None); reflexivity.
Defined.

Example two_segments_times_ok :
  exists r segments,
    snd (transcribe_audio (world_with two_segment_model) sample_audio
           (lit "tiny") None) = Returns r
    /\ dict_lookup (lit "segments") r = Some (PList segments)
    /\ segment_times_ok segments = true.
Proof. eexists. eexists. repeat split. Qed.

(** C8.  Of every result of [transcribe_audio]: if [success] is false, the
    result is the two-key dictionary whose [error] is a non-empty string,
    with no [text], [language], [segments] or [model_used]; if [success]
    is true, the [segments] are the engine's segments in the engine's
    order, one for one, and the text of each is the engine's text for it
    without the whitespace around it. *)
Theorem result_shape (w : World) (audio_path model : pystr)
    (language : option pystr) tr r :
  transcribe_audio w audio_path model language = (tr, Returns r) ->
  (dict_lookup (lit "success") r = Some (PBool false) ->
   exists msg,
     dict_lookup (lit "error") r = Some (PStr msg) /\ msg <> []
     /\ dict_keys r = [lit "success"; lit "error"]
     /\ dict_lookup (lit "text") r = None
     /\ dict_lookup (lit "language") r = None
     /\ dict_lookup (lit "segments") r = None
     /\ dict_lookup (lit "model_used") r = None)
  /\ (dict_lookup (lit "success") r = Some (PBool true) ->
      exists model_instance result items segments,
        whisper_load_model w model = Returns model_instance
        /\ model_transcribe model_instance audio_path (build_options language)
           = Returns result
        /\ engine_segments result = Returns items
        /\ dict_lookup (lit "segments") r = Some (PList segments)
        /\ Forall2 trimmed_copy items segments).
Proof.
  intros Hrun.
  destruct (transcribe_audio_returns _ _ _ _ Hrun)
    as [[msg [-> Hmsg]]|[mi [res [segs [text [_ [Hl [Ht [Hseg [_ [_ ->]]]]]]]]]]].
  - split; [|discriminate]. intros _. exists msg. repeat split. exact Hmsg.
  - split; [discriminate|]. intros _.
    destruct (extract_segments_returns _ Hseg) as [items [Hitems Hcopy]].
    exists mi, res, items, segs. auto.
Qed.

Lemma result_shape_witness :
  (exists tr r,
      transcribe_audio empty_disk sample_audio (lit "tiny") None
      = (tr, Returns r)
      /\ dict_lookup (lit "success") r = Some (PBool false)
      /\ exists msg,
           dict_lookup (lit "error") r = Some (PStr msg) /\ msg <> []
           /\ dict_keys r = [lit "success"; lit "error"]
           /\ dict_lookup (lit "text") r = None
           /\ dict_lookup (lit "language") r = None
           /\ dict_lookup (lit "segments") r = None
           /\ dict_lookup (lit "model_used") r = None)
  /\ (exists tr r,
        transcribe_audio (world_with two_segment_model) sample_audio
          (lit "tiny") None = (tr, Returns r)
        /\ dict_lookup (lit "success") r = Some (PBool true)
        /\ exists model_instance result items segments,
             whisper_load_model (world_with two_segment_model) (lit "tiny")
             = Returns model_instance
             /\ model_transcribe model_instance sample_audio (build_options None)
                = Returns result
             /\ engine_segments result = Returns items
             /\ dict_lookup (lit "segments") r = Some (PList segments)
             /\ Forall2 trimmed_copy items segments).
Proof.
  split.
  - eexists. eexists. split; [reflexivity|]. split; [reflexivity|].
    apply (proj1 (@result_shape empty_disk sample_audio (lit "tiny") None
                    _ _ eq_refl)).
    reflexivity.
  - eexists. eexists. split; [reflexivity|]. split; [reflexivity|].
    apply (proj2 (@result_shape (world_with two_segment_model) sample_audio
                    (lit "tiny") None _ _ eq_refl)).
    reflexivity.
Defined.

Example strip_unicode_whitespace :
  strip ([160; 9] ++ lit "a b" ++ [32; 8232; 10])%N = lit "a b".
Proof. reflexivity. Qed.

(** The trimmed texts of the sample. *)
Example two_segments_trimmed :
  exists r,
    snd (transcribe_audio (world_with two_segment_model) sample_audio
           (lit "tiny") None) = Returns r
    /\ dict_lookup (lit "segments") r
       = Some (PList [PDict [(lit "start", PFloat 0); (lit "end", PFloat (5 # 2));
                             (lit "text", PStr (lit "Bonjour"))];
                      PDict [(lit "start", PFloat (5 # 2)); (lit "end", PFloat (7 # 1));
                             (lit "text", PStr (lit "tout le monde."))]]).
Proof. eexists. split; reflexivity. Qed.

(* ===================================================================== *)
(** * Exceptions *)
(* ===================================================================== *)

(** Whatever the body raises inside the [Exception] hierarchy, be it the
    engine's or that of an operation of the script on the engine's result,
    becomes the failure result. *)
Lemma body_exception_becomes_failure (w : World) (audio_path model : pystr)
    (language : option pystr) tr e :
  transcribe_audio_body w audio_path model language = (tr, Raises e) ->
  isinstance_Exception e = true ->
  transcribe_audio w audio_path model language
  = (tr, Returns (failure (lit "Transcription failed: " ++ exc_str e))).
Proof.
  intros Hbody He. rewrite transcribe_audio_handler, Hbody, He. reflexivity.
Qed.

(** A result of the engine without [text] ends in the handler too. *)
Example missing_text_is_a_failure :
  snd (transcribe_audio
         (world_with {| model_transcribe := fun _ _ =>
                          Returns [(lit "language", PStr (lit "en"))] |})
         sample_audio (lit "tiny") None)
  = Returns (failure (lit "Transcription failed: 'text'")).
Proof. reflexivity. Qed.

(** C9, as the specification has it, fails: [except Exception] does not
    catch what derives from [BaseException] only.  A [KeyboardInterrupt]
    raised during inference reaches the caller of [transcribe_audio]. *)
Lemma keyboard_interrupt_propagates :
  transcribe_audio (world_with interrupted_model) sample_audio (lit "tiny") None
  = ([EvExists sample_audio; EvLoadModel (lit "tiny");
      EvTranscribe sample_audio []],
     Raises (BaseExc "KeyboardInterrupt" [])).
Proof. reflexivity. Qed.

(** C9 (amended).  [transcribe_audio] never propagates an exception that is
    an instance of [Exception]: for every input, and every such exception
    raised by the load of the model or by the inference, it returns the
    failure result whose [error] is "Transcription failed: " followed by
    [str(e)], whatever the class of the exception.  What is raised outside
    the [Exception] hierarchy is not caught. *)
Theorem exceptions_become_failures (w : World) (audio_path model : pystr)
    (language : option pystr) :
  (forall e,
      os_path_exists w audio_path = true ->
      isinstance_Exception e = true ->
      (whisper_load_model w model = Raises e
       \/ exists model_instance,
            whisper_load_model w model = Returns model_instance
            /\ model_transcribe model_instance audio_path (build_options language)
               = Raises e) ->
      snd (transcribe_audio w audio_path model language)
      = Returns [(lit "success", PBool false);
                 (lit "error", PStr (lit "Transcription failed: " ++ exc_str e))])
  /\ (forall e,
        snd (transcribe_audio w audio_path model language) = Raises e ->
        isinstance_Exception e = false).
Proof.
  split.
  - intros e Hex He Hraised.
    rewrite transcribe_audio_handler.
    destruct (transcribe_audio_body_path w audio_path model language)
      as [Hex'|e' Hex' Hl|mi e' Hex' Hl Ht|mi res e' Hex' Hl Ht Hs
          |mi res segs e' Hex' Hl Ht Hs Hx|mi res segs text Hex' Hl Ht Hs Hx];
      try congruence;
      destruct Hraised as [Hr|[mi' [Hr Hr']]]; try congruence;
      try (assert (mi' = mi) by congruence; subst mi'); try congruence;
      (assert (e' = e) by congruence); subst e'; rewrite He; reflexivity.
  - intros e Hrun.
    destruct (transcribe_audio w audio_path model language) as [tr o] eqn:E.
    simpl in Hrun. subst o.
    apply (proj1 (transcribe_audio_raises _ _ _ _ E)).
Qed.

Lemma exceptions_become_failures_witness :
  (os_path_exists (world_with crashing_model) sample_audio = true
   /\ isinstance_Exception (Exc "RuntimeError" (lit "Failed to load audio")) = true
   /\ snd (transcribe_audio (world_with crashing_model) sample_audio
             (lit "tiny") None)
      = Returns [(lit "success", PBool false);
                 (lit "error",
                  PStr (lit "Transcription failed: Failed to load audio"))])
  /\ (snd (transcribe_audio (world_with interrupted_model) sample_audio
             (lit "tiny") None) = Raises (BaseExc "KeyboardInterrupt" [])
      /\ isinstance_Exception (BaseExc "KeyboardInterrupt" []) = false).
Proof.
  split.
  - split; [reflexivity|]. split; [reflexivity|].
    apply (proj1 (exceptions_become_failures (world_with crashing_model)
                    sample_audio (lit "tiny") None)
             (Exc "RuntimeError" (lit "Failed to load audio")));
      [reflexivity|reflexivity|].
    right. exists crashing_model. split; reflexivity.
  - split; [reflexivity|].
    apply (proj2 (exceptions_become_failures (world_with interrupted_model)
                    sample_audio (lit "tiny") None)).
    reflexivity.
Defined.

(* ===================================================================== *)
(** * Further properties of the script *)
(* ===================================================================== *)

(** ** What [strip] removes *)

Lemma lstrip_spec (s : pystr) :
  exists before,
    s = before ++ lstrip s
    /\ forallb py_isspace before = true
    /\ match lstrip s with
       | [] => True
       | c :: _ => py_isspace c = false
       end.
Proof.
  induction s as [|c s IH].
  - exists []. repeat split.
  - simpl. destruct (py_isspace c) eqn:Hc.
    + destruct IH as [before [Hs [Hb Hh]]].
      exists (c :: before). simpl. rewrite Hc, Hb. repeat split; [|exact Hh].
      f_equal. exact Hs.
    + exists []. repeat split. exact Hc.
Qed.

Lemma forallb_rev {A} (f : A -> bool) (l : list A) :
  forallb f (rev l) = forallb f l.
Proof.
  induction l as [|x l IH]; [reflexivity|].
  simpl. rewrite forallb_app, IH. simpl. rewrite andb_true_r.
  apply andb_comm.
Qed.

Lemma rstrip_spec (s : pystr) :
  exists after,
    s = rstrip s ++ after
    /\ forallb py_isspace after = true
    /\ (forall c, rstrip s <> [] -> py_isspace (last (rstrip s) c) = false).
Proof.
  unfold rstrip.
  destruct (lstrip_spec (rev s)) as [before [Hs [Hb Hh]]].
  exists (rev before). split; [|split].
  - rewrite <- rev_app_distr, <- Hs, rev_involutive. reflexivity.
  - rewrite forallb_rev. exact Hb.
  - intros c Hne. destruct (lstrip (rev s)) as [|c' r]; [contradiction|].
    simpl. rewrite last_last. exact Hh.
Qed.

(** [s.strip()] takes whitespace off the two ends of [s], all of it and
    nothing else. *)
Lemma strip_trimming (s : pystr) : trimming_of s (strip s).
Proof.
  unfold strip.
  destruct (lstrip_spec s) as [before [Hs [Hb Hh]]].
  destruct (rstrip_spec (lstrip s)) as [after [Hu [Ha Hl]]].
  exists before, after. split; [|split; [exact Hb|split; [exact Ha|]]].
  - rewrite <- Hu. exact Hs.
  - unfold trimmed. destruct (rstrip (lstrip s)) as [|c r] eqn:E; [reflexivity|].
    rewrite (Hl c) by discriminate.
    rewrite Hu in Hh. simpl in Hh. rewrite Hh. reflexivity.
Qed.



(** Stripping twice is stripping once. *)
Lemma lstrip_trimmed_head (s : pystr) :
  match s with [] => True | c :: _ => py_isspace c = false end ->
  lstrip s = s.
Proof. destruct s as [|c s]; [reflexivity|]. simpl. intros ->. reflexivity. Qed.

Lemma strip_idempotent (s : pystr) : strip (strip s) = strip s.
Proof.
  destruct (strip_trimming s) as [before [after [_ [_ [_ Ht]]]]].
  remember (strip s) as t eqn:Et. clear Et.
  unfold trimmed in Ht. destruct t as [|c t]; [reflexivity|].
  apply andb_true_iff in Ht. destruct Ht as [Hhead Hlast].
  apply negb_true_iff in Hhead. apply negb_true_iff in Hlast.
  unfold strip. rewrite (lstrip_trimmed_head (c :: t)) by exact Hhead.
  unfold rstrip.
  assert (Hrev : exists r, rev (c :: t) = last (c :: t) c :: r).
  { destruct (exists_last (l := c :: t)) as [r [x E]]; [discriminate|].
    rewrite E. rewrite last_last, rev_app_distr. simpl. eauto. }
  destruct Hrev as [r Hrev]. rewrite Hrev.
  rewrite (lstrip_trimmed_head (last (c :: t) c :: r)) by exact Hlast.
  rewrite <- Hrev. apply rev_involutive.
Qed.

(** ** When the engine's result can be reshaped *)

Lemma reshape_segment_usable (s : pyval) :
  segment_usable s = true ->
  exists o, reshape_segment s = Returns o.
Proof.
  destruct s; simpl; try discriminate.
  unfold reshape_segment; simpl.
  destruct (dict_get d (lit "text") (PStr [])); try discriminate.
  intros _. eexists. reflexivity.
Qed.

Lemma reshape_segment_unusable (s : pyval) :
  segment_usable s = false ->
  exists e, reshape_segment s = Raises e /\ isinstance_Exception e = true.
Proof.
  intros Hs. destruct (reshape_segment s) as [o|e] eqn:E.
  - apply reshape_segment_returns in E.
    destruct E as [d [t [-> [Ht _]]]]. simpl in Hs. rewrite Ht in Hs.
    discriminate.
  - exists e. split; [reflexivity|]. eapply reshape_segment_raises; eassumption.
Qed.

Lemma for_each_reshape_usable (items : list pyval) :
  forallb segment_usable items = true ->
  exists segments, for_each reshape_segment items = Returns segments.
Proof.
  induction items as [|s items IH]; simpl; intros H.
  - eexists. reflexivity.
  - apply andb_true_iff in H. destruct H as [Hs Hitems].
    destruct (reshape_segment_usable s Hs) as [o ->].
    destruct (IH Hitems) as [segments ->]. eexists. reflexivity.
Qed.

Lemma for_each_reshape_unusable (items : list pyval) :
  forallb segment_usable items = false ->
  exists e, for_each reshape_segment items = Raises e.
Proof.
  induction items as [|s items IH]; simpl; intros H; [discriminate|].
  destruct (segment_usable s) eqn:Hs; simpl in H.
  - destruct (reshape_segment_usable s Hs) as [o ->].
    destruct (IH H) as [e ->]. eexists. reflexivity.
  - destruct (reshape_segment_unusable s Hs) as [e [-> _]]. eexists. reflexivity.
Qed.

Lemma extract_segments_engine (result : pydict) :
  extract_segments result =
  match engine_segments result with
  | Returns items => for_each reshape_segment items
  | Raises e => Raises e
  end.
Proof.
  unfold extract_segments, engine_segments.
  destruct (dict_contains (lit "segments") result); [|reflexivity].
  destruct (py_getitem result (lit "segments")) as [raw|]; [|reflexivity].
  simpl. destruct (py_iter raw); reflexivity.
Qed.

Lemma result_text_returns (result : pydict) (text : pyval) :
  result_text result = Returns text ->
  exists raw, dict_lookup (lit "text") result = Some (PStr raw)
              /\ text = PStr (strip raw).
Proof.
  unfold result_text, py_getitem.
  destruct (dict_lookup (lit "text") result) as [v|]; [|discriminate].
  destruct v; simpl; try discriminate.
  intros H; inversion H. eauto.
Qed.

Lemma result_text_of_string (result : pydict) (raw : pystr) :
  dict_lookup (lit "text") result = Some (PStr raw) ->
  result_text result = Returns (PStr (strip raw)).
Proof. unfold result_text, py_getitem. intros ->. reflexivity. Qed.

(** A usable result goes through lines 45-56, and only a usable one
    does. *)
Lemma usable_result_reshaped (result : pydict) :
  usable_result result = true <->
  exists segments text,
    extract_segments result = Returns segments
    /\ result_text result = Returns text.
Proof.
  unfold usable_result. rewrite extract_segments_engine. split.
  - destruct (dict_lookup (lit "text") result) as [v|] eqn:Ht; [|discriminate].
    destruct v; try discriminate.
    destruct (engine_segments result) as [items|]; [|discriminate].
    intros Hitems. destruct (for_each_reshape_usable _ Hitems) as [segs Hsegs].
    exists segs, (PStr (strip s)). split; [exact Hsegs|].
    apply result_text_of_string. exact Ht.
  - intros [segs [text [Hsegs Htext]]].
    destruct (result_text_returns _ Htext) as [raw [-> _]].
    destruct (engine_segments result) as [items|]; [|discriminate].
    destruct (forallb segment_usable items) eqn:E; [reflexivity|].
    destruct (for_each_reshape_unusable _ E) as [e He]. congruence.
Qed.

(** X4.  [transcribe_audio] returns a success exactly when the file exists,
    the model loads, and the engine returns a result whose [text] is a
    string and whose segments, if it has any, are dicts with a string (or
    no) [text].  Anything else is a failure or an exception that passes
    through: one segment that is not usable loses the whole transcript. *)
Theorem success_iff_usable (w : World) (audio_path model : pystr)
    (language : option pystr) :
  (exists tr r,
      transcribe_audio w audio_path model language = (tr, Returns r)
      /\ dict_lookup (lit "success") r = Some (PBool true))
  <->
  (os_path_exists w audio_path = true
   /\ exists model_instance result,
        whisper_load_model w model = Returns model_instance
        /\ model_transcribe model_instance audio_path (build_options language)
           = Returns result
        /\ usable_result result = true).
Proof.
  split.
  - intros [tr [r [Hrun Hs]]].
    destruct (transcribe_audio_returns _ _ _ _ Hrun)
      as [[msg [-> _]]|[mi [res [segs [text [Hex [Hl [Ht [Hseg [Hx _]]]]]]]]]].
    + discriminate.
    + split; [exact Hex|]. exists mi, res. split; [exact Hl|].
      split; [exact Ht|]. apply usable_result_reshaped. eauto.
  - intros [Hex [mi [res [Hl [Ht Hu]]]]].
    apply usable_result_reshaped in Hu. destruct Hu as [segs [text [Hseg Hx]]].
    rewrite transcribe_audio_handler.
    destruct (transcribe_audio_body_path w audio_path model language)
      as [Hex'|e' Hex' Hl'|mi' e' Hex' Hl' Ht'|mi' res' e' Hex' Hl' Ht' Hs'
          |mi' res' segs' e' Hex' Hl' Ht' Hs' Hx'
          |mi' res' segs' text' Hex' Hl' Ht' Hs' Hx'];
      try congruence;
      try (assert (mi' = mi) by congruence; subst mi');
      try congruence;
      try (assert (res' = res) by congruence; subst res');
      try congruence.
    eexists. eexists. split; reflexivity.
Qed.

Lemma success_iff_usable_witness :
  exists tr r,
    transcribe_audio (world_with two_segment_model) sample_audio (lit "tiny")
      (Some (lit "fr")) = (tr, Returns r)
    /\ dict_lookup (lit "success") r = Some (PBool true).
Proof.
  apply (proj2 (success_iff_usable (world_with two_segment_model) sample_audio
                  (lit "tiny") (Some (lit "fr")))).
  split; [reflexivity|].
  exists two_segment_model. eexists. split; [reflexivity|].
  split; reflexivity.
Defined.

(** ** The shape of a success *)

Lemma trimmed_copy_keys items segments :
  Forall2 trimmed_copy items segments ->
  Forall (fun o => segment_keys o = [lit "start"; lit "end"; lit "text"])
         segments.
Proof.
  induction 1 as [|s o items segments [d [t [_ [_ ->]]]] _ IH];
    constructor; [reflexivity|exact IH].
Qed.

Lemma trimmed_copy_texts items segments :
  Forall2 trimmed_copy items segments ->
  Forall2 (fun s o => text_trimming (segment_text s) (segment_text o))
          items segments.
Proof.
  induction 1 as [|s o items segments [d [t [-> [Ht ->]]]] _ IH];
    constructor; [|exact IH].
  exists t, (strip t). simpl. rewrite Ht. split; [reflexivity|].
  split; [reflexivity|]. apply strip_trimming.
Qed.

(** X1.  A success has exactly the five keys [success], [text], [language],
    [segments], [model_used], in this order, and each of its segments has
    exactly the keys [start], [end], [text]: whatever else the engine put
    in its result or in a segment ([id], [tokens], ...) is dropped. *)
Theorem success_result_keys (w : World) (audio_path model : pystr)
    (language : option pystr) tr r :
  transcribe_audio w audio_path model language = (tr, Returns r) ->
  dict_lookup (lit "success") r = Some (PBool true) ->
  dict_keys r = [lit "success"; lit "text"; lit "language"; lit "segments";
                 lit "model_used"]
  /\ exists segments,
       dict_lookup (lit "segments") r = Some (PList segments)
       /\ Forall (fun o => segment_keys o = [lit "start"; lit "end"; lit "text"])
                 segments.
Proof.
  intros Hrun Hs.
  destruct (transcribe_audio_returns _ _ _ _ Hrun)
    as [[msg [-> _]]|[mi [res [segs [text [_ [_ [_ [Hseg [_ [_ ->]]]]]]]]]]].
  - discriminate.
  - split; [reflexivity|]. exists segs. split; [reflexivity|].
    destruct (extract_segments_returns _ Hseg) as [items [_ Hcopy]].
    eapply trimmed_copy_keys; eassumption.
Qed.

Lemma success_result_keys_witness :
  exists tr r,
    transcribe_audio (world_with two_segment_model) sample_audio (lit "tiny")
      None = (tr, Returns r)
    /\ dict_lookup (lit "success") r = Some (PBool true)
    /\ dict_keys r = [lit "success"; lit "text"; lit "language";
                      lit "segments"; lit "model_used"]
    /\ exists segments,
         dict_lookup (lit "segments") r = Some (PList segments)
         /\ Forall (fun o => segment_keys o
                             = [lit "start"; lit "end"; lit "text"]) segments.
Proof.
  eexists. eexists. split; [reflexivity|]. split; [reflexivity|].
  eapply (@success_result_keys (world_with two_segment_model) sample_audio
            (lit "tiny") None); reflexivity.
Defined.

(** X2.  In a success the [text], and the [text] of every segment, is the
    engine's text with whitespace taken off its two ends and nothing else:
    the engine's text is the output text between two runs of whitespace,
    and the output text neither begins nor ends with whitespace. *)
Theorem output_texts_are_trimmings (w : World) (audio_path model : pystr)
    (language : option pystr) tr r :
  transcribe_audio w audio_path model language = (tr, Returns r) ->
  dict_lookup (lit "success") r = Some (PBool true) ->
  exists model_instance result raw out items segments,
    whisper_load_model w model = Returns model_instance
    /\ model_transcribe model_instance audio_path (build_options language)
       = Returns result
    /\ dict_lookup (lit "text") result = Some (PStr raw)
    /\ dict_lookup (lit "text") r = Some (PStr out)
    /\ trimming_of raw out
    /\ engine_segments result = Returns items
    /\ dict_lookup (lit "segments") r = Some (PList segments)
    /\ Forall2 (fun s o => text_trimming (segment_text s) (segment_text o))
               items segments.
Proof.
  intros Hrun Hs.
  destruct (transcribe_audio_returns _ _ _ _ Hrun)
    as [[msg [-> _]]|[mi [res [segs [text [_ [Hl [Ht [Hseg [Hx [_ ->]]]]]]]]]]].
  - discriminate.
  - destruct (result_text_returns _ Hx) as [raw [Hraw ->]].
    destruct (extract_segments_returns _ Hseg) as [items [Hitems Hcopy]].
    exists mi, res, raw, (strip raw), items, segs.
    split; [exact Hl|]. split; [exact Ht|]. split; [exact Hraw|].
    split; [reflexivity|]. split; [apply strip_trimming|].
    split; [exact Hitems|]. split; [reflexivity|].
    apply trimmed_copy_texts. exact Hcopy.
Qed.

Lemma output_texts_are_trimmings_witness :
  exists tr r,
    transcribe_audio (world_with two_segment_model) sample_audio (lit "tiny")
      None = (tr, Returns r)
    /\ dict_lookup (lit "success") r = Some (PBool true)
    /\ exists model_instance result raw out items segments,
         whisper_load_model (world_with two_segment_model) (lit "tiny")
         = Returns model_instance
         /\ model_transcribe model_instance sample_audio (build_options None)
            = Returns result
         /\ dict_lookup (lit "text") result = Some (PStr raw)
         /\ dict_lookup (lit "text") r = Some (PStr out)
         /\ trimming_of raw out
         /\ engine_segments result = Returns items
         /\ dict_lookup (lit "segments") r = Some (PList segments)
         /\ Forall2 (fun s o => text_trimming (segment_text s) (segment_text o))
                    items segments.
Proof.
  eexists. eexists. split; [reflexivity|]. split; [reflexivity|].
  eapply (@output_texts_are_trimmings (world_with two_segment_model)
            sample_audio (lit "tiny") None); reflexivity.
Defined.

(** X3.  In a success the [language] is the value the engine's result has
    under [language], whatever it is, and the string "unknown" when the
    engine's result has no such key; the language argument of the call
    plays no part in it. *)
Theorem output_language (w : World) (audio_path model : pystr)
    (language : option pystr) tr r :
  transcribe_audio w audio_path model language = (tr, Returns r) ->
  dict_lookup (lit "success") r = Some (PBool true) ->
  exists model_instance result,
    whisper_load_model w model = Returns model_instance
    /\ model_transcribe model_instance audio_path (build_options language)
       = Returns result
    /\ (forall v, dict_lookup (lit "language") result = Some v ->
                  dict_lookup (lit "language") r = Some v)
    /\ (dict_lookup (lit "language") result = None ->
        dict_lookup (lit "language") r = Some (PStr (lit "unknown"))).
Proof.
  intros Hrun Hs.
  destruct (transcribe_audio_returns _ _ _ _ Hrun)
    as [[msg [-> _]]|[mi [res [segs [text [_ [Hl [Ht [_ [_ [_ ->]]]]]]]]]]].
  - discriminate.
  - exists mi, res. split; [exact Hl|]. split; [exact Ht|].
    assert (E : dict_lookup (lit "language") (success_dict res segs text model)
                = Some (dict_get res (lit "language") (PStr (lit "unknown"))))
      by reflexivity.
    rewrite E. unfold dict_get.
    split; [intros v ->; reflexivity|intros ->; reflexivity].
Qed.

Lemma output_language_witness :
  exists tr r,
    transcribe_audio (world_with (constant_model [(lit "text", PStr (lit "ok"))]))
      sample_audio (lit "tiny") (Some (lit "fr")) = (tr, Returns r)
    /\ dict_lookup (lit "success") r = Some (PBool true)
    /\ dict_lookup (lit "language") r = Some (PStr (lit "unknown")).
Proof.
  eexists. eexists. split; [reflexivity|]. split; [reflexivity|].
  destruct (@output_language
              (world_with (constant_model [(lit "text", PStr (lit "ok"))]))
              sample_audio (lit "tiny") (Some (lit "fr")) _ _ eq_refl eq_refl)
    as [mi [res [Hl [Ht [_ Hdefault]]]]].
  simpl in Hl. injection Hl as <-. simpl in Ht. injection Ht as <-.
  apply Hdefault. reflexivity.
Defined.

(** ** Edge cases of the engine's result *)

(** X5.  A result of the engine without the key [segments], whose [text] is
    a string, is a success with an empty list of segments. *)
Theorem missing_segments_is_empty_list (w : World) (audio_path model : pystr)
    (language : option pystr) model_instance result raw :
  os_path_exists w audio_path = true ->
  whisper_load_model w model = Returns model_instance ->
  model_transcribe model_instance audio_path (build_options language)
  = Returns result ->
  dict_lookup (lit "segments") result = None ->
  dict_lookup (lit "text") result = Some (PStr raw) ->
  snd (transcribe_audio w audio_path model language)
  = Returns [(lit "success", PBool true);
             (lit "text", PStr (strip raw));
             (lit "language",
              dict_get result (lit "language") (PStr (lit "unknown")));
             (lit "segments", PList []);
             (lit "model_used", PStr model)].
Proof.
  intros Hex Hl Ht Hnoseg Htext.
  rewrite transcribe_audio_handler.
  unfold transcribe_audio_body, call, pure, bind, ret.
  rewrite Hex, Hl. simpl. rewrite Ht. simpl.
  unfold extract_segments, dict_contains. rewrite Hnoseg. simpl.
  fold (result_text result). rewrite (result_text_of_string _ Htext).
  reflexivity.
Qed.

Lemma missing_segments_is_empty_list_witness :
  snd (transcribe_audio
         (world_with (constant_model [(lit "text", PStr (lit " ok "))]))
         sample_audio (lit "tiny") None)
  = Returns [(lit "success", PBool true);
             (lit "text", PStr (lit "ok"));
             (lit "language", PStr (lit "unknown"));
             (lit "segments", PList []);
             (lit "model_used", PStr (lit "tiny"))].
Proof.
  exact (@missing_segments_is_empty_list
           (world_with (constant_model [(lit "text", PStr (lit " ok "))]))
           sample_audio (lit "tiny") None
           (constant_model [(lit "text", PStr (lit " ok "))])
           [(lit "text", PStr (lit " ok "))] (lit " ok ")
           eq_refl eq_refl eq_refl eq_refl eq_refl).
Defined.





(** ** Effects and messages *)

(** X8.  The events of a call of [transcribe_audio] are an initial part of
    the sequence: existence check of the given path, load of the given
    model, one [transcribe] of the given path.  So the check always comes
    first, the model is loaded at most once and never before the check,
    [transcribe] is called at most once and never without a loaded model,
    and the call writes nothing to standard output. *)
Theorem effects_in_order (w : World) (audio_path model : pystr)
    (language : option pystr) :
  (exists n,
      (1 <= n)%nat
      /\ fst (transcribe_audio w audio_path model language)
         = firstn n [EvExists audio_path; EvLoadModel model;
                     EvTranscribe audio_path (build_options language)])
  /\ stdout_of (fst (transcribe_audio w audio_path model language)) = [].
Proof.
  rewrite transcribe_audio_handler.
  destruct (transcribe_audio_body_path w audio_path model language);
    try (destruct (isinstance_Exception e)); simpl;
    (split; [|reflexivity]);
    solve [exists 1%nat; split; [lia|reflexivity]
          |exists 2%nat; split; [lia|reflexivity]
          |exists 3%nat; split; [lia|reflexivity]].
Qed.

(** X9.  The [error] of a failure tells which way the call went.  It is
    "Audio file not found: <path>" exactly when the file does not exist,
    and then the existence check is the only event; otherwise it is
    "Transcription failed: " followed by [str(e)] for an [Exception] [e],
    the file exists and the model load was attempted. *)
Theorem failure_message_tells_the_path (w : World) (audio_path model : pystr)
    (language : option pystr) tr r msg :
  transcribe_audio w audio_path model language = (tr, Returns r) ->
  dict_lookup (lit "error") r = Some (PStr msg) ->
  (os_path_exists w audio_path = false
   /\ msg = lit "Audio file not found: " ++ audio_path
   /\ tr = [EvExists audio_path])
  \/ (os_path_exists w audio_path = true
      /\ (exists e, isinstance_Exception e = true
                    /\ msg = lit "Transcription failed: " ++ exc_str e)
      /\ load_calls tr = [model]
      /\ msg <> lit "Audio file not found: " ++ audio_path).
Proof.
  intros Hrun Herr. rewrite transcribe_audio_handler in Hrun.
  destruct (transcribe_audio_body_path w audio_path model language)
    as [Hex|e' Hex Hl|mi e' Hex Hl Ht|mi res e' Hex Hl Ht Hs
        |mi res segs e' Hex Hl Ht Hs Hx|mi res segs text Hex Hl Ht Hs Hx].
  - inversion Hrun; subst. inversion Herr; subst. left. auto.
  - destruct (isinstance_Exception e') eqn:Hi; inversion Hrun; subst.
    inversion Herr; subst. right. repeat split; eauto. discriminate.
  - destruct (isinstance_Exception e') eqn:Hi; inversion Hrun; subst.
    inversion Herr; subst. right. repeat split; eauto. discriminate.
  - rewrite (extract_segments_raises _ Hs) in Hrun.
    inversion Hrun; subst. inversion Herr; subst. right.
    repeat split; eauto using extract_segments_raises. discriminate.
  - rewrite (result_text_raises _ Hx) in Hrun.
    inversion Hrun; subst. inversion Herr; subst. right.
    repeat split; eauto using result_text_raises. discriminate.
  - inversion Hrun; subst. discriminate.
Qed.

Lemma failure_message_tells_the_path_witness :
  exists tr r msg,
    transcribe_audio (world_with crashing_model) sample_audio (lit "tiny") None
    = (tr, Returns r)
    /\ dict_lookup (lit "error") r = Some (PStr msg)
    /\ msg <> lit "Audio file not found: " ++ sample_audio.
Proof.
  eexists. eexists. eexists. split; [reflexivity|]. split; [reflexivity|].
  destruct (@failure_message_tells_the_path (world_with crashing_model)
              sample_audio (lit "tiny") None _ _ _ eq_refl eq_refl)
    as [[Hex _]|[_ [_ [_ Hne]]]].
  - discriminate Hex.
  - exact Hne.
Defined.

(** ** The command line *)



(** X11.  Arguments after the third are ignored: the invocation runs as
    the one with the first three. *)
Theorem extra_arguments_ignored (w : World) (script audio_path model language : pystr)
    (extra : list pystr) :
  main w (script :: audio_path :: model :: language :: extra)
  = main w [script; audio_path; model; language].
Proof. reflexivity. Qed.

Lemma load_calls_app tr tr' : load_calls (tr ++ tr') = load_calls tr ++ load_calls tr'.
Proof.
  induction tr as [|ev tr IH]; [reflexivity|].
  destruct ev; simpl; rewrite IH; reflexivity.
Qed.

Lemma transcribe_calls_app tr tr' :
  transcribe_calls (tr ++ tr') = transcribe_calls tr ++ transcribe_calls tr'.
Proof.
  induction tr as [|ev tr IH]; [reflexivity|].
  destruct ev; simpl; rewrite IH; reflexivity.
Qed.

(** The engine events of [main] are those of its call of
    [transcribe_audio]. *)
Lemma main_engine_calls (w : World) (argv : list pystr) :
  (2 <= List.length argv)%nat ->
  load_calls (fst (main w argv))
  = load_calls (fst (transcribe_audio w (nth 1 argv []) (argv_model argv)
                       (argv_language argv)))
  /\ transcribe_calls (fst (main w argv))
     = transcribe_calls (fst (transcribe_audio w (nth 1 argv [])
                                (argv_model argv) (argv_language argv))).
Proof.
  intros Hlen. rewrite (main_after_transcribe w argv Hlen).
  destruct (transcribe_audio w (nth 1 argv []) (argv_model argv)
              (argv_language argv)) as [tr [r|e]]; [|split; reflexivity].
  destruct (py_getitem r (lit "success")); simpl;
    rewrite load_calls_app, transcribe_calls_app; simpl;
    rewrite !app_nil_r; split; reflexivity.
Qed.

(** X12.  The arguments of the command line reach the engine as they are:
    with an existing file, a model that loads and a non-empty language,
    the invocation [script audio model language] loads the model [model]
    once and calls [transcribe] once, on [audio] with the one option
    [language=language]. *)
Theorem command_line_reaches_engine (w : World)
    (script audio_path model language : pystr) model_instance :
  os_path_exists w audio_path = true ->
  whisper_load_model w model = Returns model_instance ->
  language <> [] ->
  load_calls (fst (main w [script; audio_path; model; language])) = [model]
  /\ transcribe_calls (fst (main w [script; audio_path; model; language]))
     = [(audio_path, [(lit "language", PStr language)])].
Proof.
  intros Hex Hl Hlang.
  destruct (main_engine_calls w [script; audio_path; model; language])
    as [-> ->]; [simpl; lia|].
  change (nth 1 [script; audio_path; model; language] []) with audio_path.
  change (argv_model [script; audio_path; model; language]) with model.
  change (argv_language [script; audio_path; model; language])
    with (Some language).
  assert (Hopt : build_options (Some language) = [(lit "language", PStr language)]).
  { destruct language; [contradiction|reflexivity]. }
  rewrite (transcribe_audio_calls_engine w audio_path model (Some language)
             Hex Hl), Hopt.
  split; [|reflexivity].
  rewrite transcribe_audio_handler.
  destruct (transcribe_audio_body_path w audio_path model (Some language));
    try congruence; try (destruct (isinstance_Exception e)); reflexivity.
Qed.

Lemma command_line_reaches_engine_witness :
  load_calls (fst (main (world_with two_segment_model)
                        [script_name; sample_audio; lit "base"; lit "fr"]))
  = [lit "base"]
  /\ transcribe_calls (fst (main (world_with two_segment_model)
                             [script_name; sample_audio; lit "base"; lit "fr"]))
     = [(sample_audio, [(lit "language", PStr (lit "fr"))])].
Proof.
  apply (@command_line_reaches_engine (world_with two_segment_model)
           script_name sample_audio (lit "base") (lit "fr") two_segment_model).
  - reflexivity.
  - reflexivity.
  - discriminate.
Defined.



(** ** The text of the documents *)






(** A path with a double quote is escaped, not written as it is. *)
Example missing_file_quoted_path :
  stdout_of (fst (main empty_disk [script_name; dq "a'b.wav"])) =
  [dq "{
  'success': false,
  'error': 'Audio file not found: a\'b.wav'
}
"].
Proof. reflexivity. Qed.

(** X15.  There are no partial results: when one of the engine's segments
    is not usable (it is not a dict, or its [text] is not a string), the
    call returns the failure "Transcription failed: " followed by the
    message of the [Exception] the reshaping raised, even if the engine's
    [text] and all other segments are fine. *)
Theorem unusable_segment_is_failure (w : World) (audio_path model : pystr)
    (language : option pystr) model_instance result items :
  os_path_exists w audio_path = true ->
  whisper_load_model w model = Returns model_instance ->
  model_transcribe model_instance audio_path (build_options language)
  = Returns result ->
  engine_segments result = Returns items ->
  forallb segment_usable items = false ->
  exists e,
    isinstance_Exception e = true
    /\ for_each reshape_segment items = Raises e
    /\ snd (transcribe_audio w audio_path model language)
       = Returns [(lit "success", PBool false);
                  (lit "error", PStr (lit "Transcription failed: " ++ exc_str e))].
Proof.
  intros Hex Hl Ht Hitems Hbad.
  destruct (for_each_reshape_unusable _ Hbad) as [e He].
  assert (Hi : isinstance_Exception e = true).
  { eapply for_each_raises; [|exact He]. apply reshape_segment_raises. }
  exists e. split; [exact Hi|]. split; [exact He|].
  rewrite transcribe_audio_handler.
  unfold transcribe_audio_body, call, pure, bind, ret.
  rewrite Hex, Hl. simpl. rewrite Ht. simpl.
  rewrite extract_segments_engine, Hitems, He. simpl. rewrite Hi. reflexivity.
Qed.

(** An engine whose second segment has no usable text. *)
Example segment_with_null_text :
  snd (transcribe_audio
         (world_with (constant_model
            [(lit "text", PStr (lit "one two"));
             (lit "segments",
              PList [PDict [(lit "text", PStr (lit "one"))];
                     PDict [(lit "text", PNone)]])]))
         sample_audio (lit "tiny") None)
  = Returns (failure (lit "Transcription failed: 'NoneType' object has no attribute 'strip'")).
Proof. reflexivity. Qed.

Lemma unusable_segment_is_failure_witness :
  exists e,
    isinstance_Exception e = true
    /\ for_each reshape_segment
         [PDict [(lit "text", PStr (lit "one"))]; PDict [(lit "text", PNone)]]
       = Raises e
    /\ snd (transcribe_audio
              (world_with (constant_model
                 [(lit "text", PStr (lit "one two"));
                  (lit "segments",
                   PList [PDict [(lit "text", PStr (lit "one"))];
                          PDict [(lit "text", PNone)]])]))
              sample_audio (lit "tiny") None)
       = Returns [(lit "success", PBool false);
                  (lit "error", PStr (lit "Transcription failed: " ++ exc_str e))].
Proof.
  apply (@unusable_segment_is_failure
           (world_with (constant_model
              [(lit "text", PStr (lit "one two"));
               (lit "segments",
                PList [PDict [(lit "text", PStr (lit "one"))];
                       PDict [(lit "text", PNone)]])]))
           sample_audio (lit "tiny") None
           (constant_model
              [(lit "text", PStr (lit "one two"));
               (lit "segments",
                PList [PDict [(lit "text", PStr (lit "one"))];
                       PDict [(lit "text", PNone)]])])
           [(lit "text", PStr (lit "one two"));
            (lit "segments",
             PList [PDict [(lit "text", PStr (lit "one"))];
                    PDict [(lit "text", PNone)]])]
           [PDict [(lit "text", PStr (lit "one"))]; PDict [(lit "text", PNone)]]);
    reflexivity.
Defined.
